(** * react-native-qibla-compass: the [useQiblaCompass] hook of [src/index.js]

    A shallow embedding of the hook's arithmetic and of its initialisation
    sequence, followed by the properties of the specification.

    Number model.  JavaScript numbers are IEEE doubles.  The heading pipeline
    ([degree], [direction], the two rotations) only adds, subtracts and
    compares integers and the constants 22.5, 67.5, ...: it is embedded over
    [Q], where that arithmetic is exact and every definition computes.  The
    two functions that go through [Math.atan2], [Math.sin], [Math.cos] and
    [Math.tan] ([angle] and [calculate]) are embedded over the real numbers
    [R]; rounding error of the double operations, NaN and signed zeros are
    outside the model. *)

From Stdlib Require Import ZArith QArith Qreals Reals Lqa Lra Lia.
From Stdlib Require Import Bool List String.
Import ListNotations.

Local Open Scope Q_scope.

(** ** The [Math] builtins used by the source *)

Module JSMath.

Local Open Scope R_scope.

(** [Math.atan2(y, x)]: the angle of the point (x, y), in (-PI, PI]. *)
Definition atan2 (y x : R) : R :=
  if Rlt_dec 0 x then atan (y / x)
  else if Rlt_dec x 0 then
    if Rle_dec 0 y then atan (y / x) + PI else atan (y / x) - PI
  else
    if Rlt_dec 0 y then PI / 2
    else if Rlt_dec y 0 then - (PI / 2)
    else 0.

(** [Math.round(v)]: the nearest integer, a tie going up: floor (v + 1/2). *)
Definition round (v : R) : Z := Zfloor (v + / 2).

End JSMath.

(** ** Stage 1: [angle] (index.js, lines 67-78) *)

(** The [data] object handed to the magnetometer listener ([z] is unused). *)
Record MagnetometerData : Type := mkData { data_x : R; data_y : R }.

(** [angle(magnetometer)]; [None] stands for a falsy argument. *)
Definition angle (magnetometer : option MagnetometerData) : Q :=
  let angle :=
    match magnetometer with
    | Some d =>
        let x := data_x d in
        let y := data_y d in
        if Rge_dec (JSMath.atan2 y x) 0
        then (JSMath.atan2 y x * (180 / PI))%R
        else ((JSMath.atan2 y x + 2 * PI) * (180 / PI))%R
    | None => 0%R
    end in
  inject_Z (JSMath.round angle).

(** ** Stage 2: [degree] (index.js, lines 100-102) *)

(** [x < y] on rationals as a boolean, the companion of [Qle_bool]. *)
Definition Qlt_bool (x y : Q) : bool :=
  (Qnum x * QDen y <? Qnum y * QDen x)%Z.

Definition degree (magnetometer : Q) : Q :=
  if Qle_bool 0 (magnetometer - 90) then magnetometer - 90
  else magnetometer + 271.

(** ** Sector classifier: [direction] (index.js, lines 80-98) *)

Definition direction (degree : Q) : string :=
  if Qle_bool 22.5 degree && Qlt_bool degree 67.5 then "NE"%string
  else if Qle_bool 67.5 degree && Qlt_bool degree 112.5 then "E"%string
  else if Qle_bool 112.5 degree && Qlt_bool degree 157.5 then "SE"%string
  else if Qle_bool 157.5 degree && Qlt_bool degree 202.5 then "S"%string
  else if Qle_bool 202.5 degree && Qlt_bool degree 247.5 then "SW"%string
  else if Qle_bool 247.5 degree && Qlt_bool degree 292.5 then "W"%string
  else if Qle_bool 292.5 degree && Qlt_bool degree 337.5 then "NW"%string
  else "N"%string.

(** The eight labels [direction] can return. *)
Definition labels : list string :=
  ["N"; "NE"; "E"; "SE"; "S"; "SW"; "W"; "NW"]%string.

(** ** Bearing calculator: the value computed by [calculate]
    (index.js, lines 104-116) *)

Definition calculate_qiblad (latitude longitude : R) : R :=
  let latk := (21.4225 * PI / 180.0)%R in
  let longk := (39.8264 * PI / 180.0)%R in
  let phi := (latitude * PI / 180.0)%R in
  let lambda := (longitude * PI / 180.0)%R in
  (180.0 / PI *
   JSMath.atan2 (sin (longk - lambda))
                (cos phi * tan latk - sin phi * cos (longk - lambda)))%R.

(** ** The hook's state and the magnetometer service *)

(** The handle returned by [Magnetometer.addListener]. *)
Definition Subscription : Type := nat.

(** What the hook changes in expo-sensors' [Magnetometer]: the update
    interval (in ms) and the registered listeners. *)
Record Magnetometer : Type := mkSensor {
  updateInterval : option Z;
  listeners : list Subscription
}.

(** The five [useState] cells (index.js, lines 15-19). *)
Record HookState : Type := mkHook {
  subscription : option Subscription;
  magnetometer : Q;
  qiblad : R;
  error : option string;
  isLoading : bool
}.

Record World : Type := mkWorld { hook : HookState; sensor : Magnetometer }.

Definition initial_hook : HookState :=
  {| subscription := None; magnetometer := 0; qiblad := 0%R;
     error := None; isLoading := true |}.

Definition initial_world : World :=
  {| hook := initial_hook;
     sensor := {| updateInterval := None; listeners := [] |} |}.

Definition setSubscription (v : option Subscription) (s : HookState) :=
  {| subscription := v; magnetometer := magnetometer s; qiblad := qiblad s;
     error := error s; isLoading := isLoading s |}.

Definition setMagnetometer (v : Q) (s : HookState) :=
  {| subscription := subscription s; magnetometer := v; qiblad := qiblad s;
     error := error s; isLoading := isLoading s |}.

Definition setQiblad (v : R) (s : HookState) :=
  {| subscription := subscription s; magnetometer := magnetometer s;
     qiblad := v; error := error s; isLoading := isLoading s |}.

Definition setError (v : option string) (s : HookState) :=
  {| subscription := subscription s; magnetometer := magnetometer s;
     qiblad := qiblad s; error := v; isLoading := isLoading s |}.

Definition setIsLoading (v : bool) (s : HookState) :=
  {| subscription := subscription s; magnetometer := magnetometer s;
     qiblad := qiblad s; error := error s; isLoading := v |}.

Definition with_hook (f : HookState -> HookState) (w : World) : World :=
  {| hook := f (hook w); sensor := sensor w |}.

(** [calculate(latitude, longitude)] (index.js, lines 104-118). *)
Definition calculate (latitude longitude : R) (w : World) : World :=
  with_hook (setQiblad (calculate_qiblad latitude longitude)) w.

(** [Magnetometer.setUpdateInterval] and [Magnetometer.addListener]. *)
Definition setUpdateInterval (ms : Z) (m : Magnetometer) : Magnetometer :=
  {| updateInterval := Some ms; listeners := listeners m |}.

Definition addListener (m : Magnetometer) : Subscription * Magnetometer :=
  let h := List.length (listeners m) in
  (h, {| updateInterval := updateInterval m; listeners := h :: listeners m |}).

(** [subscribe()] (index.js, lines 53-60). *)
Definition subscribe (w : World) : World :=
  let m := setUpdateInterval 100 (sensor w) in
  let (h, m') := addListener m in
  {| hook := setSubscription (Some h) (hook w); sensor := m' |}.

(** The listener installed by [subscribe]: [setMagnetometer(angle(data))]. *)
Definition listener (data : MagnetometerData) (s : HookState) : HookState :=
  setMagnetometer (angle (Some data)) s.

(** The magnetometer delivers one sample: every registered listener runs. *)
Definition emit (data : MagnetometerData) (w : World) : World :=
  fold_left (fun w' _ => with_hook (listener data) w') (listeners (sensor w)) w.

(** What the two providers answer during one run of [initCompass]:
    [position = None] is a rejected [getCurrentPositionAsync]. *)
Record Providers : Type := mkProviders {
  isAvailableAsync : bool;
  permission_status : string;
  position : option (R * R)
}.

(** How the promise returned by [initCompass] settles. *)
Inductive Completion : Type := Resolved | Rejected.

(** [initCompass()] (index.js, lines 21-43), for a run in which the two
    queries of lines 22 and 28 answer; [initCompass_settled] below adds the
    runs in which one of them rejects.  The [try] has a [finally] and no
    [catch]: the [finally] block runs on both paths, and a rejected position
    request still rejects the promise of [initCompass]. *)
Definition initCompass (p : Providers) (w : World) : World * Completion :=
  if negb (isAvailableAsync p) then
    let w := with_hook (setError (Some "Compass is not available on this device"%string)) w in
    (with_hook (setIsLoading false) w, Resolved)
  else if negb (String.eqb (permission_status p) "granted") then
    let w := with_hook (setError (Some "Location permission not granted"%string)) w in
    (with_hook (setIsLoading false) w, Resolved)
  else
    match position p with
    | Some (latitude, longitude) =>
        let w := calculate latitude longitude w in
        (subscribe (with_hook (setIsLoading false) w), Resolved)
    | None =>
        (subscribe (with_hook (setIsLoading false) w), Rejected)
    end.

(** The derived values returned by the hook (index.js, lines 120-123). *)
Definition compassDirection (s : HookState) : string :=
  direction (degree (magnetometer s)).

Definition compassDegree (s : HookState) : Q := degree (magnetometer s).

Definition compassRotate (s : HookState) : Q := 360 - degree (magnetometer s).

Definition kabaRotate (s : HookState) : R :=
  (Q2R (360 - degree (magnetometer s)) + qiblad s)%R.

(** The hook state after the sample (x = 0, y = 1), whose raw heading is 90. *)
Definition north_sample_state : HookState :=
  listener (mkData 0 1) initial_hook.

(** [subscription.remove()]: the listener with that handle is dropped. *)
Definition removeListener (h : Subscription) (m : Magnetometer) : Magnetometer :=
  {| updateInterval := updateInterval m;
     listeners := List.remove Nat.eq_dec h (listeners m) |}.

(** [unsubscribe()] (index.js, lines 62-65).  [unsubscribe] is declared anew
    in every render and reads [subscription] from that render: the argument
    is the value of the cell in the render whose closure is called. *)
Definition unsubscribe (subscription : option Subscription) (w : World) : World :=
  let m := match subscription with
           | Some h => removeListener h (sensor w)
           | None => sensor w
           end in
  {| hook := setSubscription None (hook w); sensor := m |}.

(** The effect of index.js, lines 45-51, has no dependencies: it runs once,
    after the first render, and its clean-up calls the [unsubscribe] of that
    first render, where [subscription] is the initial value of the cell. *)
Definition mount (p : Providers) : World * Completion :=
  initCompass p initial_world.

Definition unmount (w : World) : World :=
  unsubscribe (subscription initial_hook) w.

(** The worlds of a mounted hook: [initCompass] runs (on mount, and again
    each time the consumer calls [reinitCompass]) and the magnetometer
    delivers samples.  Every state update of one [initCompass] run happens
    after its last [await], so a run is one step. *)
Inductive reachable : World -> Prop :=
| reach_initial : reachable initial_world
| reach_init (p : Providers) (w : World) :
    reachable w -> reachable (fst (initCompass p w))
| reach_emit (data : MagnetometerData) (w : World) :
    reachable w -> reachable (emit data w).

(** [k] worlds visited by running [initCompass] with each answer in turn. *)
Fixpoint reinit (ps : list Providers) (w : World) : World :=
  match ps with
  | [] => w
  | p :: ps' => reinit ps' (fst (initCompass p w))
  end.

(** Whether a run of [initCompass] gets past the two checks. *)
Definition passes_checks (p : Providers) : bool :=
  isAvailableAsync p && String.eqb (permission_status p) "granted".

(** [initCompass()] (index.js, lines 21-43) with every [await] allowed to
    reject: each argument is what the promise settles to, [None] for a
    rejection.  The awaits of lines 22 and 28 stand outside the [try]: when
    one of them rejects the run ends there, before any state update, and the
    promise of [initCompass] rejects.  The permission is only requested when
    the sensor is available. *)
Definition initCompass_settled
    (available : option bool) (status : option string)
    (located : option (R * R)) (w : World) : World * Completion :=
  match available with
  | None => (w, Rejected)
  | Some isAvailable =>
      if negb isAvailable then
        let w := with_hook (setError (Some "Compass is not available on this device"%string)) w in
        (with_hook (setIsLoading false) w, Resolved)
      else
        match status with
        | None => (w, Rejected)
        | Some st =>
            if negb (String.eqb st "granted") then
              let w := with_hook (setError (Some "Location permission not granted"%string)) w in
              (with_hook (setIsLoading false) w, Resolved)
            else
              match located with
              | Some (latitude, longitude) =>
                  let w := calculate latitude longitude w in
                  (subscribe (with_hook (setIsLoading false) w), Resolved)
              | None =>
                  (subscribe (with_hook (setIsLoading false) w), Rejected)
              end
        end
  end.

(** * Properties *)

(** ** Facts about the [Math] builtins *)

Section MathFacts.

Local Open Scope R_scope.

Lemma round_IZR (n : Z) : JSMath.round (IZR n) = n.
Proof. unfold JSMath.round. apply Zfloor_eq. lra. Qed.

Lemma round_nearest (v : R) :
  IZR (JSMath.round v) - / 2 <= v < IZR (JSMath.round v) + / 2.
Proof.
  unfold JSMath.round.
  pose proof (Zfloor_bound (v + / 2)) as B. lra.
Qed.

Lemma atan2_pos_x (y x : R) : 0 < x -> JSMath.atan2 y x = atan (y / x).
Proof.
  intro Hx. unfold JSMath.atan2.
  destruct (Rlt_dec 0 x); [reflexivity | contradiction].
Qed.

Lemma atan_pos (t : R) : 0 < t -> 0 < atan t.
Proof. intro H. rewrite <- atan_0. now apply atan_increasing. Qed.

Lemma atan_neg (t : R) : t < 0 -> atan t < 0.
Proof. intro H. rewrite <- atan_0. now apply atan_increasing. Qed.

Lemma atan_nonpos (t : R) : t <= 0 -> atan t <= 0.
Proof.
  intros [H | ->]; [left; now apply atan_neg | rewrite atan_0; lra].
Qed.

Lemma div_neg_den_nonpos (y x : R) : x < 0 -> 0 <= y -> y / x <= 0.
Proof.
  intros Hx Hy. unfold Rdiv.
  assert (/ x < 0) by now apply Rinv_lt_0_compat.
  nra.
Qed.

Lemma div_neg_neg_pos (y x : R) : x < 0 -> y < 0 -> 0 < y / x.
Proof.
  intros Hx Hy. unfold Rdiv.
  assert (/ x < 0) by now apply Rinv_lt_0_compat.
  nra.
Qed.

(** [Math.atan2] ranges over (-PI, PI]. *)
Lemma atan2_bound (y x : R) : - PI < JSMath.atan2 y x <= PI.
Proof.
  pose proof PI_RGT_0 as HPI.
  pose proof (atan_bound (y / x)) as B.
  unfold JSMath.atan2.
  destruct (Rlt_dec 0 x) as [Hx | Hx]; [lra |].
  destruct (Rlt_dec x 0) as [Hx' | Hx'].
  - destruct (Rle_dec 0 y) as [Hy | Hy].
    + pose proof (atan_nonpos _ (div_neg_den_nonpos y x Hx' Hy)). lra.
    + assert (0 < atan (y / x)) by (apply atan_pos, div_neg_neg_pos; lra).
      lra.
  - destruct (Rlt_dec 0 y); [lra |].
    destruct (Rlt_dec y 0); lra.
Qed.

End MathFacts.

(** ** Stage 1 *)

Section Stage1.

Local Open Scope R_scope.

Lemma atan2_east : JSMath.atan2 0 1 = 0.
Proof.
  rewrite atan2_pos_x by lra.
  replace (0 / 1) with 0 by field. apply atan_0.
Qed.

Lemma atan2_north : JSMath.atan2 1 0 = PI / 2.
Proof.
  unfold JSMath.atan2.
  destruct (Rlt_dec 0 0) as [H | _]; [lra |].
  destruct (Rlt_dec 0 1) as [_ | H]; [reflexivity | lra].
Qed.

Lemma atan2_west : JSMath.atan2 0 (-1) = PI.
Proof.
  unfold JSMath.atan2.
  destruct (Rlt_dec 0 (-1)) as [H | _]; [lra |].
  destruct (Rlt_dec (-1) 0) as [_ | H]; [| lra].
  destruct (Rle_dec 0 0) as [_ | H]; [| lra].
  replace (0 / -1) with 0 by field. rewrite atan_0. ring.
Qed.

Lemma atan2_south : JSMath.atan2 (-1) 0 = - (PI / 2).
Proof.
  unfold JSMath.atan2.
  destruct (Rlt_dec 0 0) as [H | _]; [lra |].
  destruct (Rlt_dec 0 (-1)) as [H | _]; [lra |].
  destruct (Rlt_dec (-1) 0) as [_ | H]; [reflexivity | lra].
Qed.

(** The real number [angle] rounds: the degrees of [atan2], plus a turn
    when [atan2] is negative. *)
Lemma angle_unrounded (x y : R) :
  angle (Some (mkData x y)) =
  inject_Z (JSMath.round
              (JSMath.atan2 y x * 180 / PI +
               (if Rlt_dec (JSMath.atan2 y x) 0 then 360 else 0))).
Proof.
  pose proof PI_RGT_0 as HPI.
  unfold angle; cbn [data_x data_y].
  destruct (Rge_dec (JSMath.atan2 y x) 0) as [Hge | Hlt];
    destruct (Rlt_dec (JSMath.atan2 y x) 0) as [Hn | Hn]; try lra;
    do 2 f_equal; field; lra.
Qed.

(** An angle given in whole degrees, in the first quadrant, is read back
    by [angle] from the unit vector pointing there. *)
Lemma angle_unit_vector (n : Z) :
  (0 <= n < 90)%Z ->
  angle (Some (mkData (cos (IZR n * PI / 180)) (sin (IZR n * PI / 180))))
  = inject_Z n.
Proof.
  intros [Hlo Hhi].
  pose proof PI_RGT_0 as HPI.
  apply IZR_le in Hlo. apply IZR_lt in Hhi.
  set (t := IZR n * PI / 180).
  assert (Ht : 0 <= t < PI / 2) by (unfold t; split; nra).
  assert (Hc : 0 < cos t) by (apply cos_gt_0; lra).
  assert (Ha : JSMath.atan2 (sin t) (cos t) = t).
  { rewrite atan2_pos_x by exact Hc.
    fold (tan t). apply atan_tan. lra. }
  rewrite angle_unrounded, Ha.
  destruct (Rlt_dec t 0) as [Hn | _]; [lra |].
  replace (t * 180 / PI + 0) with (IZR n) by (unfold t; field; lra).
  now rewrite round_IZR.
Qed.

End Stage1.

Section Stage1Values.

Local Open Scope R_scope.

Lemma angle_east : angle (Some (mkData 1 0)) = 0%Q.
Proof.
  pose proof PI_RGT_0 as HPI.
  rewrite angle_unrounded, atan2_east.
  destruct (Rlt_dec 0 0); [lra |].
  replace (0 * 180 / PI + 0) with (IZR 0) by (field; lra).
  now rewrite round_IZR.
Qed.

Lemma angle_north : angle (Some (mkData 0 1)) = 90%Q.
Proof.
  pose proof PI_RGT_0 as HPI.
  rewrite angle_unrounded, atan2_north.
  destruct (Rlt_dec (PI / 2) 0); [lra |].
  replace (PI / 2 * 180 / PI + 0) with (IZR 90) by (field; lra).
  now rewrite round_IZR.
Qed.

Lemma angle_west : angle (Some (mkData (-1) 0)) = 180%Q.
Proof.
  pose proof PI_RGT_0 as HPI.
  rewrite angle_unrounded, atan2_west.
  destruct (Rlt_dec PI 0); [lra |].
  replace (PI * 180 / PI + 0) with (IZR 180) by (field; lra).
  now rewrite round_IZR.
Qed.

Lemma angle_south : angle (Some (mkData 0 (-1))) = 270%Q.
Proof.
  pose proof PI_RGT_0 as HPI.
  rewrite angle_unrounded, atan2_south.
  destruct (Rlt_dec (- (PI / 2)) 0); [| lra].
  replace (- (PI / 2) * 180 / PI + 360) with (IZR 270) by (field; lra).
  now rewrite round_IZR.
Qed.

Lemma angle_falsy : angle None = 0%Q.
Proof. unfold angle. now rewrite round_IZR. Qed.

(** A vector just below the positive x axis (a tenth of a degree) is
    rounded up to 360, not to 0. *)
Lemma angle_360 :
  angle (Some (mkData (cos (- (PI / 1800))) (sin (- (PI / 1800))))) = 360%Q.
Proof.
  pose proof PI_RGT_0 as HPI.
  set (t := - (PI / 1800)).
  assert (Ht : - (PI / 2) < t < 0) by (unfold t; split; lra).
  assert (Hc : 0 < cos t) by (apply cos_gt_0; lra).
  assert (Ha : JSMath.atan2 (sin t) (cos t) = t).
  { rewrite atan2_pos_x by exact Hc.
    fold (tan t). apply atan_tan. lra. }
  rewrite angle_unrounded, Ha.
  destruct (Rlt_dec t 0) as [_ | Hn]; [| lra].
  unfold JSMath.round.
  replace (t * 180 / PI + 360 + / 2) with (IZR 360 + 4 / 10)
    by (unfold t; field; lra).
  change 360%Q with (inject_Z 360).
  f_equal. apply Zfloor_eq. lra.
Qed.

End Stage1Values.

(** C3: Stage 1 returns atan2(y, x) in degrees, with 360 added when atan2 is
    negative, rounded to the nearest integer degree; (1,0) gives 0, (0,1)
    gives 90, (-1,0) gives 180 and (0,-1) gives 270; with no sample the raw
    heading is 0. *)
Theorem angle_stage1 :
  (forall x y : R,
      let a := JSMath.atan2 y x in
      let deg := (a * 180 / PI + (if Rlt_dec a 0 then 360 else 0))%R in
      angle (Some (mkData x y)) = inject_Z (JSMath.round deg)
      /\ (IZR (JSMath.round deg) - / 2 <= deg < IZR (JSMath.round deg) + / 2)%R)
  /\ angle (Some (mkData 1 0)) = 0
  /\ angle (Some (mkData 0 1)) = 90
  /\ angle (Some (mkData (-1) 0)) = 180
  /\ angle (Some (mkData 0 (-1))) = 270
  /\ magnetometer initial_hook = 0
  /\ angle None = 0.
Proof.
  split; [intros x y a deg; split;
          [apply angle_unrounded | apply round_nearest] |].
  repeat split.
  - exact angle_east.
  - exact angle_north.
  - exact angle_west.
  - exact angle_south.
  - exact angle_falsy.
Qed.

(** ** Bearing calculator *)

Section Bearing.

Local Open Scope R_scope.

(** The code converts both longitudes to radians and subtracts; the
    formula of the specification subtracts the degrees first. *)
Lemma calculate_qiblad_formula (latitude longitude : R) :
  calculate_qiblad latitude longitude =
  JSMath.atan2
    (sin ((39.8264 - longitude) * PI / 180))
    (cos (latitude * PI / 180) * tan (21.4225 * PI / 180)
     - sin (latitude * PI / 180) * cos ((39.8264 - longitude) * PI / 180))
  * 180 / PI.
Proof.
  pose proof PI_RGT_0 as HPI.
  unfold calculate_qiblad.
  replace (39.8264 * PI / 180.0 - longitude * PI / 180.0)
    with ((39.8264 - longitude) * PI / 180) by lra.
  replace (latitude * PI / 180.0) with (latitude * PI / 180) by lra.
  replace (21.4225 * PI / 180.0) with (21.4225 * PI / 180) by lra.
  replace 180.0 with 180 by lra.
  field. lra.
Qed.

Lemma calculate_qiblad_range (latitude longitude : R) :
  -180 < calculate_qiblad latitude longitude <= 180.
Proof.
  pose proof PI_RGT_0 as HPI.
  unfold calculate_qiblad.
  match goal with |- context [JSMath.atan2 ?y ?x] =>
    pose proof (atan2_bound y x) as [Hlo Hhi];
    set (a := JSMath.atan2 y x) in *
  end.
  replace 180.0 with 180 by lra.
  assert (Hk : 0 < 180 / PI) by (apply Rdiv_lt_0_compat; lra).
  assert (E : 180 / PI * PI = 180) by (field; lra).
  split.
  - replace (-180) with (180 / PI * - PI) by (field; lra).
    now apply Rmult_lt_compat_l.
  - rewrite <- E at 2. apply Rmult_le_compat_l; lra.
Qed.

(** An observer on the equator, 90 degrees east of the target's meridian,
    gets a negative bearing. *)
Lemma calculate_qiblad_negative : calculate_qiblad 0 129.8264 < 0.
Proof.
  pose proof PI_RGT_0 as HPI.
  unfold calculate_qiblad.
  replace (39.8264 * PI / 180.0 - 129.8264 * PI / 180.0)
    with (- (PI / 2)) by lra.
  replace (0 * PI / 180.0) with 0 by lra.
  rewrite sin_neg, cos_neg, sin_PI2, cos_PI2, sin_0, cos_0.
  assert (Ht : 0 < tan (21.4225 * PI / 180.0)) by (apply tan_gt_0; lra).
  replace (1 * tan (21.4225 * PI / 180.0) - 0 * 0)
    with (tan (21.4225 * PI / 180.0)) by ring.
  rewrite atan2_pos_x by exact Ht.
  assert (Hq : - (1) / tan (21.4225 * PI / 180.0) < 0).
  { unfold Rdiv. apply Rinv_0_lt_compat in Ht. nra. }
  apply atan_neg in Hq.
  set (a := atan (- (1) / tan (21.4225 * PI / 180.0))) in *.
  assert (Hk : 0 < 180.0 / PI) by (apply Rdiv_lt_0_compat; lra).
  set (k := 180.0 / PI) in *.
  assert (0 < k * - a) by (apply Rmult_lt_0_compat; lra).
  lra.
Qed.

End Bearing.

(** C1: for every observer the bearing stored by [calculate] is the
    forward-azimuth formula to (21.4225, 39.8264), with the angles in radians
    and the result back in degrees; it is a signed value in (-180, 180], and
    a negative value is returned as it is (no normalisation into [0, 360)). *)
Theorem calculate_forward_azimuth :
  (forall (latitude longitude : R) (w : World),
      let to_rad := fun d : R => (d * PI / 180)%R in
      let to_deg := fun r : R => (r * 180 / PI)%R in
      let dlambda := to_rad (39.8264 - longitude)%R in
      let phi_o := to_rad latitude in
      let phi_t := to_rad 21.4225%R in
      let b := qiblad (hook (calculate latitude longitude w)) in
      b = to_deg (JSMath.atan2 (sin dlambda)
                    (cos phi_o * tan phi_t - sin phi_o * cos dlambda)%R)
      /\ (-180 < b <= 180)%R)
  /\ (forall w : World, (qiblad (hook (calculate 0 129.8264 w)) < 0)%R).
Proof.
  split.
  - intros latitude longitude w; cbv zeta; cbn [calculate with_hook hook setQiblad qiblad].
    split; [apply calculate_qiblad_formula | apply calculate_qiblad_range].
  - intro w. cbn [calculate with_hook hook setQiblad qiblad].
    apply calculate_qiblad_negative.
Qed.

(** ** Stage 2 and the sector classifier *)

Lemma Qle_boolP (x y : Q) : reflect (x <= y) (Qle_bool x y).
Proof. apply iff_reflect. symmetry. apply Qle_bool_iff. Qed.

Lemma Qlt_boolP (x y : Q) : reflect (x < y) (Qlt_bool x y).
Proof.
  apply iff_reflect. unfold Qlt_bool, Qlt. symmetry. apply Z.ltb_lt.
Qed.

(** Linear arithmetic over [Q] ([lra] is the one over [R] here). *)
Ltac qlra := Lqa.lra.

(** A comparison of two rational constants, by evaluation. *)
Ltac qconst :=
  first [ apply Qle_bool_iff; reflexivity | apply Qlt_alt; reflexivity ].

(** Case analysis on every comparison of the goal. *)
Ltac qcases :=
  repeat match goal with
    | |- context [Qle_bool ?a ?b] => destruct (Qle_boolP a b)
    | |- context [Qlt_bool ?a ?b] => destruct (Qlt_boolP a b)
    end;
  cbn [andb].

Lemma in_binP (lo d hi : Q) :
  reflect (lo <= d < hi) (Qle_bool lo d && Qlt_bool d hi).
Proof.
  destruct (Qle_boolP lo d), (Qlt_boolP d hi); constructor; tauto.
Qed.

(** Walks down the chain of bin tests of [direction]. *)
Ltac bins :=
  repeat match goal with
    | |- context [Qle_bool ?lo ?d && Qlt_bool ?d ?hi] =>
        destruct (in_binP lo d hi); cbv iota
    end.

Lemma degree_ge (m : Q) : 90 <= m -> degree m = m - 90.
Proof. intro H. unfold degree. qcases; [reflexivity | exfalso; qlra]. Qed.

Lemma degree_lt (m : Q) : m < 90 -> degree m = m + 271.
Proof. intro H. unfold degree. qcases; [exfalso; qlra | reflexivity]. Qed.

Lemma inject_Z_le_const (a n : Z) : (a <= n)%Z -> inject_Z a <= inject_Z n.
Proof. intro H. now rewrite Zle_Qle in H. Qed.

Lemma degree_int_ge (n : Z) :
  (90 <= n)%Z -> degree (inject_Z n) == inject_Z (n - 90).
Proof.
  intro H. apply (inject_Z_le_const 90) in H.
  rewrite degree_ge by exact H.
  unfold Z.sub. rewrite inject_Z_plus. reflexivity.
Qed.

Lemma degree_int_lt (n : Z) :
  (n < 90)%Z -> degree (inject_Z n) == inject_Z (n + 271).
Proof.
  intro H. rewrite Zlt_Qlt in H.
  rewrite degree_lt by exact H.
  rewrite inject_Z_plus. reflexivity.
Qed.

(** C2: Stage 2 returns rawHeading - 90 when that is at least 0 and
    rawHeading + 271 otherwise; it maps 0 to 271, 90 to 0 and 45 to 316. *)
Theorem degree_stage2 :
  (forall rawHeading : Q,
      (0 <= rawHeading - 90 -> degree rawHeading = rawHeading - 90)
      /\ (~ 0 <= rawHeading - 90 -> degree rawHeading = rawHeading + 271))
  /\ degree 0 = 271
  /\ degree 90 = 0
  /\ degree 45 = 316.
Proof.
  split; [| repeat apply conj; reflexivity].
  intro m; split; intro H.
  - apply degree_ge. qlra.
  - apply degree_lt. qlra.
Qed.

Lemma degree_stage2_witness : degree 120 = 120 - 90.
Proof.
  apply (proj1 (proj1 degree_stage2 120)).
  qconst.
Defined.

(** C4: [direction] returns one of the 8 labels, by half-open bins 45 degrees
    wide whose boundaries are the odd multiples of 22.5; 0 and 22.4 and 359.9
    are N, 22.5 is NE. *)
Theorem direction_bins :
  (forall d : Q,
      In (direction d) labels
      /\ (22.5 <= d < 67.5 -> direction d = "NE"%string)
      /\ (67.5 <= d < 112.5 -> direction d = "E"%string)
      /\ (112.5 <= d < 157.5 -> direction d = "SE"%string)
      /\ (157.5 <= d < 202.5 -> direction d = "S"%string)
      /\ (202.5 <= d < 247.5 -> direction d = "SW"%string)
      /\ (247.5 <= d < 292.5 -> direction d = "W"%string)
      /\ (292.5 <= d < 337.5 -> direction d = "NW"%string)
      /\ (337.5 <= d < 360 \/ 0 <= d < 22.5 -> direction d = "N"%string))
  /\ direction 0 = "N"%string
  /\ direction 22.4 = "N"%string
  /\ direction 22.5 = "NE"%string
  /\ direction 359.9 = "N"%string.
Proof.
  split; [| repeat split; reflexivity].
  intro d. split.
  - unfold direction, labels. bins; simpl; tauto.
  - repeat apply conj; intro H; unfold direction; bins;
      try reflexivity; exfalso; qlra.
Qed.

Lemma direction_bins_witness : direction 100 = "E"%string.
Proof.
  apply (proj1 (proj2 (proj2 (proj1 direction_bins 100)))).
  split; qconst.
Defined.

(** ** The range of Stage 2 *)

(** C7 fails at rawHeading 89, a value Stage 1 produces (from the unit vector
    at 89 degrees): the wrap-around branch adds 271, so the device heading is
    360, outside [0, 360). *)
Theorem degree_89_out_of_range :
  angle (Some (mkData (cos (IZR 89 * PI / 180)) (sin (IZR 89 * PI / 180)))) = 89
  /\ 0 <= 89 < 360
  /\ degree 89 = 360
  /\ ~ (0 <= degree 89 < 360).
Proof.
  split; [apply (angle_unit_vector 89); lia |].
  split; [split; qconst |].
  split; [reflexivity |].
  intros [_ H]. apply Qlt_alt in H. discriminate H.
Qed.

(** C9: on the integers 0..359 Stage 2 never returns 270: 90..359 go onto
    0..269 and 0..89 go onto 271..360; 360 is reached at 89. *)
Theorem degree_skips_270 :
  (forall n : Z, (0 <= n <= 359)%Z -> ~ degree (inject_Z n) == 270)
  /\ (forall n : Z, (90 <= n <= 359)%Z ->
        degree (inject_Z n) == inject_Z (n - 90) /\ (0 <= n - 90 <= 269)%Z)
  /\ (forall k : Z, (0 <= k <= 269)%Z ->
        exists n : Z, (90 <= n <= 359)%Z /\ degree (inject_Z n) == inject_Z k)
  /\ (forall n : Z, (0 <= n <= 89)%Z ->
        degree (inject_Z n) == inject_Z (n + 271)
        /\ (271 <= n + 271 <= 360)%Z)
  /\ (forall k : Z, (271 <= k <= 360)%Z ->
        exists n : Z, (0 <= n <= 89)%Z /\ degree (inject_Z n) == inject_Z k)
  /\ degree 89 = 360.
Proof.
  repeat apply conj.
  - intros n Hn E.
    destruct (Z_lt_le_dec n 90) as [Hlt | Hge].
    + rewrite degree_int_lt in E by exact Hlt.
      change 270 with (inject_Z 270) in E. apply (proj1 (inject_Z_injective _ _)) in E. lia.
    + rewrite degree_int_ge in E by exact Hge.
      change 270 with (inject_Z 270) in E. apply (proj1 (inject_Z_injective _ _)) in E. lia.
  - intros n Hn. split; [apply degree_int_ge |]; lia.
  - intros k Hk. exists (k + 90)%Z. split; [lia |].
    rewrite degree_int_ge by lia.
    now replace (k + 90 - 90)%Z with k by lia.
  - intros n Hn. split; [apply degree_int_lt |]; lia.
  - intros k Hk. exists (k - 271)%Z. split; [lia |].
    rewrite degree_int_lt by lia.
    now replace (k - 271 + 271)%Z with k by lia.
  - reflexivity.
Qed.

Lemma degree_skips_270_witness :
  ~ degree (inject_Z 0) == 270
  /\ degree (inject_Z 200) == inject_Z (200 - 90)
  /\ degree (inject_Z 10) == inject_Z (10 + 271).
Proof.
  split; [apply (proj1 degree_skips_270 0%Z); lia |].
  split.
  - apply (proj1 (proj2 degree_skips_270) 200%Z). lia.
  - apply (proj1 (proj2 (proj2 (proj2 degree_skips_270))) 10%Z). lia.
Defined.

(** ** The rotations *)

Lemma north_sample_magnetometer : magnetometer north_sample_state = 90.
Proof. exact angle_north. Qed.

(** C8 as stated fails after the sample (x = 0, y = 1): the device heading
    is 0 and the face rotation is 360, neither (360 - 0) mod 360 = 0 nor a
    value below 360. *)
Lemma compassRotate_360_at_heading_0 :
  compassDegree north_sample_state = 0
  /\ compassRotate north_sample_state = 360
  /\ ~ compassRotate north_sample_state == inject_Z ((360 - 0) mod 360)
  /\ ~ (0 <= compassRotate north_sample_state < 360).
Proof.
  unfold compassDegree, compassRotate.
  rewrite north_sample_magnetometer.
  repeat apply conj.
  - reflexivity.
  - reflexivity.
  - intro E. discriminate E.
  - intros [_ H]. apply Qlt_alt in H. discriminate H.
Qed.

(** C8, amended: the face rotation is 360 - h with no reduction modulo 360,
    so for h in [0, 360) it lies in (0, 360] and it is 360 at h = 0; the
    target rotation is the face rotation plus the bearing, not wrapped, and
    reaches 360 and more at h = 0 for a bearing that is not negative. *)
Theorem rotations_unwrapped (s : HookState) :
  compassRotate s = 360 - compassDegree s
  /\ (0 <= compassDegree s < 360 -> 0 < compassRotate s <= 360)
  /\ (compassDegree s == 0 -> compassRotate s == 360)
  /\ kabaRotate s = (Q2R (compassRotate s) + qiblad s)%R
  /\ (compassDegree s == 0 -> (0 <= qiblad s)%R -> (360 <= kabaRotate s)%R).
Proof.
  unfold compassRotate, compassDegree, kabaRotate.
  repeat apply conj.
  - reflexivity.
  - intros [Hlo Hhi]. split; qlra.
  - intro E. rewrite E. reflexivity.
  - reflexivity.
  - intros E Hq.
    assert (E' : 360 - degree (magnetometer s) == 360) by (rewrite E; reflexivity).
    rewrite (Qeq_eqR _ _ E').
    assert (Q2R 360 = 360%R) by (unfold Q2R; simpl; lra).
    lra.
Qed.

Lemma rotations_unwrapped_witness :
  let s := {| subscription := None; magnetometer := 90; qiblad := 0%R;
              error := None; isLoading := false |} in
  compassRotate s == 360 /\ (360 <= kabaRotate s)%R.
Proof.
  intro s. split.
  - apply (proj1 (proj2 (proj2 (rotations_unwrapped s)))). reflexivity.
  - apply (proj2 (proj2 (proj2 (proj2 (rotations_unwrapped s))))).
    + reflexivity.
    + simpl. lra.
Defined.

(** C10: before the first sample the hook shows 271 degrees, the label W and
    a face rotation of 89, not a heading of 0 or the label N. *)
Theorem initial_snapshot :
  magnetometer initial_hook = 0
  /\ compassDegree initial_hook = 271
  /\ compassDirection initial_hook = "W"%string
  /\ compassRotate initial_hook = 89
  /\ ~ compassDegree initial_hook == 0
  /\ compassDirection initial_hook <> "N"%string.
Proof.
  repeat apply conj; try reflexivity.
  - intro E. discriminate E.
  - intro E. discriminate E.
Qed.

(** ** Initialisation *)

Section Initialisation.

Variable p : Providers.
Variable w : World.

(** Every listener does the same update, so one registered listener is
    enough for a sample to reach the hook. *)
Lemma emit_listeners (data : MagnetometerData) (l : list Subscription) (v : World) :
  hook (fold_left (fun w' _ => with_hook (listener data) w') l v)
  = match l with
    | [] => hook v
    | _ :: _ => listener data (hook v)
    end
  /\ sensor (fold_left (fun w' _ => with_hook (listener data) w') l v)
     = sensor v.
Proof.
  revert v. induction l as [| h l IH]; intro v; cbn [fold_left].
  - split; reflexivity.
  - destruct (IH (with_hook (listener data) v)) as [Hh Hs].
    rewrite Hh, Hs. split; [| reflexivity].
    destruct l; reflexivity.
Qed.

Lemma emit_subscribed (data : MagnetometerData) (v : World) :
  hook (emit data (subscribe v)) = listener data (hook (subscribe v)).
Proof.
  unfold emit.
  destruct (emit_listeners data (listeners (sensor (subscribe v)))
              (subscribe v)) as [Hh _].
  rewrite Hh. reflexivity.
Qed.

Lemma initCompass_unavailable :
  isAvailableAsync p = false ->
  initCompass p w =
  (with_hook (setIsLoading false)
     (with_hook
        (setError (Some "Compass is not available on this device"%string)) w),
   Resolved).
Proof. intro H. unfold initCompass. now rewrite H. Qed.

Lemma initCompass_denied :
  isAvailableAsync p = true ->
  permission_status p <> "granted"%string ->
  initCompass p w =
  (with_hook (setIsLoading false)
     (with_hook (setError (Some "Location permission not granted"%string)) w),
   Resolved).
Proof.
  intros Ha Hs. unfold initCompass. rewrite Ha. cbn [negb].
  apply String.eqb_neq in Hs. now rewrite Hs.
Qed.

Lemma initCompass_no_position :
  isAvailableAsync p = true ->
  permission_status p = "granted"%string ->
  position p = None ->
  initCompass p w = (subscribe (with_hook (setIsLoading false) w), Rejected).
Proof.
  intros Ha Hs Hp. unfold initCompass. rewrite Ha, Hp. cbn [negb].
  apply String.eqb_eq in Hs. now rewrite Hs.
Qed.

Lemma initCompass_position (latitude longitude : R) :
  isAvailableAsync p = true ->
  permission_status p = "granted"%string ->
  position p = Some (latitude, longitude) ->
  initCompass p w =
  (subscribe (with_hook (setIsLoading false) (calculate latitude longitude w)),
   Resolved).
Proof.
  intros Ha Hs Hp. unfold initCompass. rewrite Ha, Hp. cbn [negb].
  apply String.eqb_eq in Hs. now rewrite Hs.
Qed.

End Initialisation.

(** C6: with the sensor unavailable, or with the sensor available and the
    permission not granted, [initCompass] stops with the matching error
    recorded, the loading flag cleared and no subscription made: the
    magnetometer service is untouched and the subscription cell unchanged
    (empty, from the initial state). *)
Theorem initCompass_failures (p : Providers) (w : World) :
  let w' := fst (initCompass p w) in
  (isAvailableAsync p = false ->
   error (hook w') = Some "Compass is not available on this device"%string
   /\ isLoading (hook w') = false
   /\ subscription (hook w') = subscription (hook w)
   /\ sensor w' = sensor w
   /\ (w = initial_world ->
       subscription (hook w') = None /\ listeners (sensor w') = []))
  /\ (isAvailableAsync p = true ->
      permission_status p <> "granted"%string ->
      error (hook w') = Some "Location permission not granted"%string
      /\ isLoading (hook w') = false
      /\ subscription (hook w') = subscription (hook w)
      /\ sensor w' = sensor w
      /\ (w = initial_world ->
          subscription (hook w') = None /\ listeners (sensor w') = [])).
Proof.
  cbv zeta. split.
  - intro Ha. rewrite (initCompass_unavailable p w Ha).
    repeat apply conj; try reflexivity; intros ->; split; reflexivity.
  - intros Ha Hs. rewrite (initCompass_denied p w Ha Hs).
    repeat apply conj; try reflexivity; intros ->; split; reflexivity.
Qed.

Lemma initCompass_failures_witness :
  error (hook (fst (initCompass (mkProviders false "granted" None) initial_world)))
  = Some "Compass is not available on this device"%string
  /\ error (hook (fst (initCompass (mkProviders true "denied" None) initial_world)))
     = Some "Location permission not granted"%string.
Proof.
  split.
  - apply (proj1 (initCompass_failures (mkProviders false "granted" None)
                    initial_world)).
    reflexivity.
  - apply (proj2 (initCompass_failures (mkProviders true "denied" None)
                    initial_world)).
    + reflexivity.
    + simpl. discriminate.
Defined.

(** C5 as stated fails where it says that the failure is swallowed: with
    the sensor available, the permission granted and the position request
    rejected, the promise returned by [initCompass] rejects too. *)
Lemma initCompass_location_failure_rejects :
  snd (initCompass (mkProviders true "granted" None) initial_world) = Rejected
  /\ snd (initCompass (mkProviders true "granted" None) initial_world)
     <> Resolved.
Proof. split; [reflexivity | discriminate]. Qed.

(** C5, amended: with the sensor available and the permission granted, a
    failed position request is not caught, and the promise of [initCompass]
    rejects; the [finally] block still runs: the error and the bearing stay
    as they were (no error and bearing 0, from the initial state), the update
    interval is set to 100 ms, a listener is registered and kept in the
    subscription cell, the loading flag is cleared, and every later sample
    updates the heading, the label and the two rotations. *)
Theorem initCompass_location_failure (p : Providers) (w : World) :
  isAvailableAsync p = true ->
  permission_status p = "granted"%string ->
  position p = None ->
  let w' := fst (initCompass p w) in
  snd (initCompass p w) = Rejected
  /\ updateInterval (sensor w') = Some 100%Z
  /\ (exists h : Subscription,
         subscription (hook w') = Some h /\ In h (listeners (sensor w')))
  /\ isLoading (hook w') = false
  /\ error (hook w') = error (hook w)
  /\ qiblad (hook w') = qiblad (hook w)
  /\ magnetometer (hook w') = magnetometer (hook w)
  /\ (w = initial_world ->
      error (hook w') = None /\ qiblad (hook w') = 0%R)
  /\ (forall data : MagnetometerData,
         let s := hook (emit data w') in
         let rawHeading := angle (Some data) in
         magnetometer s = rawHeading
         /\ compassDegree s = degree rawHeading
         /\ compassDirection s = direction (degree rawHeading)
         /\ compassRotate s = 360 - degree rawHeading
         /\ kabaRotate s = (Q2R (360 - degree rawHeading) + qiblad (hook w))%R
         /\ error s = error (hook w)
         /\ isLoading s = false).
Proof.
  intros Ha Hs Hp. cbv zeta.
  rewrite (initCompass_no_position p w Ha Hs Hp). cbn [fst snd].
  repeat apply conj; try reflexivity.
  - eexists. split; [reflexivity | left; reflexivity].
  - intros ->. split; reflexivity.
  - intro data. rewrite emit_subscribed.
    repeat apply conj; reflexivity.
Qed.

Lemma initCompass_location_failure_witness :
  let r := initCompass (mkProviders true "granted" None) initial_world in
  snd r = Rejected
  /\ updateInterval (sensor (fst r)) = Some 100%Z
  /\ isLoading (hook (fst r)) = false
  /\ error (hook (fst r)) = None
  /\ qiblad (hook (fst r)) = 0%R.
Proof.
  intro r.
  pose proof (initCompass_location_failure
                (mkProviders true "granted" None) initial_world
                eq_refl eq_refl eq_refl) as H.
  cbv zeta in H. fold r in H.
  destruct H as (Hr & Hi & _ & Hl & _ & _ & _ & H0 & _).
  destruct (H0 eq_refl) as [He Hq].
  repeat apply conj; assumption.
Defined.

(** * Further properties of the code *)

(** ** The sign and the scaling of [Math.atan2] *)

Section Atan2Facts.

Local Open Scope R_scope.

Lemma div_pos_pos (y x : R) : 0 < x -> 0 < y -> 0 < y / x.
Proof. intros Hx Hy. now apply Rdiv_lt_0_compat. Qed.

Lemma div_neg_num_neg (y x : R) : 0 < x -> y < 0 -> y / x < 0.
Proof.
  intros Hx Hy. unfold Rdiv.
  assert (0 < / x) by now apply Rinv_0_lt_compat.
  nra.
Qed.

Lemma atan2_pos_y (y x : R) : 0 < y -> 0 < JSMath.atan2 y x.
Proof.
  intro Hy.
  pose proof PI_RGT_0 as HPI.
  pose proof (atan_bound (y / x)) as B.
  unfold JSMath.atan2.
  destruct (Rlt_dec 0 x) as [Hx | Hx].
  - apply atan_pos. now apply div_pos_pos.
  - destruct (Rlt_dec x 0) as [Hx' | Hx'].
    + destruct (Rle_dec 0 y); lra.
    + destruct (Rlt_dec 0 y); lra.
Qed.

Lemma atan2_neg_y (y x : R) : y < 0 -> JSMath.atan2 y x < 0.
Proof.
  intro Hy.
  pose proof PI_RGT_0 as HPI.
  pose proof (atan_bound (y / x)) as B.
  unfold JSMath.atan2.
  destruct (Rlt_dec 0 x) as [Hx | Hx].
  - apply atan_neg. now apply div_neg_num_neg.
  - destruct (Rlt_dec x 0) as [Hx' | Hx'].
    + destruct (Rle_dec 0 y); lra.
    + destruct (Rlt_dec 0 y); [lra |].
      destruct (Rlt_dec y 0); lra.
Qed.

Lemma atan2_zero_y (x : R) :
  JSMath.atan2 0 x = if Rlt_dec x 0 then PI else 0.
Proof.
  unfold JSMath.atan2.
  destruct (Rlt_dec 0 x) as [Hx | Hx].
  - destruct (Rlt_dec x 0); [lra |].
    unfold Rdiv. rewrite Rmult_0_l. apply atan_0.
  - destruct (Rlt_dec x 0) as [Hx' | Hx'].
    + destruct (Rle_dec 0 0); [| lra].
      unfold Rdiv. rewrite Rmult_0_l, atan_0. ring.
    + destruct (Rlt_dec 0 0); [lra | reflexivity].
Qed.

Lemma atan2_nonneg_y (y x : R) : 0 <= y -> 0 <= JSMath.atan2 y x.
Proof.
  pose proof PI_RGT_0 as HPI.
  intros [Hy | <-].
  - left. now apply atan2_pos_y.
  - rewrite atan2_zero_y. destruct (Rlt_dec x 0); lra.
Qed.

(** [atan2] is odd in [y], away from the negative x axis. *)
Lemma atan2_opp_y (y x : R) :
  y <> 0 -> JSMath.atan2 (- y) x = - JSMath.atan2 y x.
Proof.
  intro Hy.
  assert (E : - y / x = - (y / x)) by (unfold Rdiv; ring).
  unfold JSMath.atan2. rewrite E, atan_opp.
  destruct (Rlt_dec 0 x); [reflexivity |].
  destruct (Rlt_dec x 0).
  - destruct (Rle_dec 0 (- y)), (Rle_dec 0 y); lra.
  - destruct (Rlt_dec 0 (- y)), (Rlt_dec 0 y), (Rlt_dec (- y) 0),
      (Rlt_dec y 0); lra.
Qed.

(** Only the direction of the vector matters, not its length. *)
Lemma atan2_scale (k y x : R) :
  0 < k -> JSMath.atan2 (k * y) (k * x) = JSMath.atan2 y x.
Proof.
  intro Hk. unfold JSMath.atan2.
  destruct (Rlt_dec 0 (k * x)) as [H1 | H1], (Rlt_dec 0 x) as [H2 | H2];
    try (exfalso; nra).
  - f_equal. field. lra.
  - destruct (Rlt_dec (k * x) 0) as [H3 | H3], (Rlt_dec x 0) as [H4 | H4];
      try (exfalso; nra).
    + assert (E : k * y / (k * x) = y / x) by (field; lra).
      rewrite E.
      destruct (Rle_dec 0 (k * y)), (Rle_dec 0 y);
        try reflexivity; exfalso; nra.
    + destruct (Rlt_dec 0 (k * y)), (Rlt_dec 0 y); try (exfalso; nra);
        [reflexivity |].
      destruct (Rlt_dec (k * y) 0), (Rlt_dec y 0);
        try reflexivity; exfalso; nra.
Qed.

Lemma round_mono (u v : R) : u <= v -> (JSMath.round u <= JSMath.round v)%Z.
Proof. intro H. unfold JSMath.round. apply Zfloor_le. lra. Qed.

Lemma round_lower (n : Z) (v : R) : IZR n <= v -> (n <= JSMath.round v)%Z.
Proof. intro H. rewrite <- (round_IZR n) at 1. now apply round_mono. Qed.

Lemma round_upper (n : Z) (v : R) : v <= IZR n -> (JSMath.round v <= n)%Z.
Proof. intro H. rewrite <- (round_IZR n) at 1. now apply round_mono. Qed.

(** The number [angle] rounds lies between 0 and 360, on the side of 180
    given by the sign of [y]. *)
Lemma angle_degrees_range (x y : R) :
  let a := JSMath.atan2 y x in
  let v := a * 180 / PI + (if Rlt_dec a 0 then 360 else 0) in
  0 <= v <= 360 /\ (0 <= y -> v <= 180) /\ (y < 0 -> 180 <= v).
Proof.
  intros a v.
  pose proof PI_RGT_0 as HPI.
  pose proof (atan2_bound y x) as [Hlo Hhi]. fold a in Hlo, Hhi.
  assert (Hi : 0 < / PI) by now apply Rinv_0_lt_compat.
  assert (E : a * 180 / PI = 180 * (a * / PI)) by (unfold Rdiv; ring).
  assert (Hup : a * / PI <= 1).
  { replace 1 with (PI * / PI) by (field; lra).
    apply Rmult_le_compat_r; lra. }
  assert (Hdn : -1 < a * / PI).
  { replace (-1) with (- PI * / PI) by (field; lra).
    apply Rmult_lt_compat_r; lra. }
  unfold v. rewrite E.
  destruct (Rlt_dec a 0) as [Hn | Hn].
  - assert (a * / PI < 0) by nra.
    repeat split; try lra.
    intro Hy. apply atan2_nonneg_y with (x := x) in Hy. fold a in Hy. lra.
  - assert (0 <= a * / PI) by nra.
    repeat split; try lra.
    intro Hy. apply atan2_neg_y with (x := x) in Hy. fold a in Hy. lra.
Qed.

End Atan2Facts.

(** X1: whatever the sample, the raw heading is a whole number of degrees
    between 0 and 360, both included; it is at most 180 when [y] is not
    negative and at least 180 when [y] is negative; 0 and 360 both occur. *)
Theorem angle_range :
  (forall d : MagnetometerData,
      exists n : Z,
        angle (Some d) = inject_Z n
        /\ (0 <= n <= 360)%Z
        /\ ((0 <= data_y d)%R -> (n <= 180)%Z)
        /\ ((data_y d < 0)%R -> (180 <= n)%Z))
  /\ (exists d : MagnetometerData, angle (Some d) = 0)
  /\ (exists d : MagnetometerData, angle (Some d) = 360).
Proof.
  split.
  - intros [x y]. cbn [data_y].
    rewrite angle_unrounded.
    destruct (angle_degrees_range x y) as [[H0 H360] [Hup Hdown]].
    eexists. split; [reflexivity |].
    repeat split.
    + now apply round_lower.
    + now apply round_upper.
    + intro Hy. apply round_upper. now apply Hup.
    + intro Hy. apply round_lower. now apply Hdown.
  - split.
    + exists (mkData 1 0). exact angle_east.
    + eexists. exact angle_360.
Qed.

Lemma angle_range_witness :
  exists n : Z, angle (Some (mkData 1 2)) = inject_Z n /\ (n <= 180)%Z.
Proof.
  destruct (proj1 angle_range (mkData 1 2)) as [n [E [_ [Hup _]]]].
  exists n. split; [exact E |].
  apply Hup. simpl. lra.
Defined.

(** X2: the raw heading depends on the direction of the measured field and
    not on its strength: scaling [x] and [y] by the same positive factor
    gives the same heading. *)
Theorem angle_scale_invariant (k x y : R) :
  (0 < k)%R ->
  angle (Some (mkData (k * x) (k * y))) = angle (Some (mkData x y)).
Proof.
  intro Hk. rewrite !angle_unrounded. now rewrite atan2_scale.
Qed.

Lemma angle_scale_invariant_witness :
  angle (Some (mkData (40 * 0) (40 * 1))) = 90.
Proof.
  rewrite (angle_scale_invariant 40 0 1) by lra.
  exact angle_north.
Defined.

(** ** The classifier and Stage 2, read backwards *)

(** The bin and the label of every heading. *)
Lemma direction_cases (d : Q) :
  (22.5 <= d < 67.5 /\ direction d = "NE"%string)
  \/ (67.5 <= d < 112.5 /\ direction d = "E"%string)
  \/ (112.5 <= d < 157.5 /\ direction d = "SE"%string)
  \/ (157.5 <= d < 202.5 /\ direction d = "S"%string)
  \/ (202.5 <= d < 247.5 /\ direction d = "SW"%string)
  \/ (247.5 <= d < 292.5 /\ direction d = "W"%string)
  \/ (292.5 <= d < 337.5 /\ direction d = "NW"%string)
  \/ ((d < 22.5 \/ 337.5 <= d) /\ direction d = "N"%string).
Proof.
  unfold direction.
  destruct (in_binP 22.5 d 67.5) as [H1 | H1];
    [left; split; [exact H1 | reflexivity] | right].
  destruct (in_binP 67.5 d 112.5) as [H2 | H2];
    [left; split; [exact H2 | reflexivity] | right].
  destruct (in_binP 112.5 d 157.5) as [H3 | H3];
    [left; split; [exact H3 | reflexivity] | right].
  destruct (in_binP 157.5 d 202.5) as [H4 | H4];
    [left; split; [exact H4 | reflexivity] | right].
  destruct (in_binP 202.5 d 247.5) as [H5 | H5];
    [left; split; [exact H5 | reflexivity] | right].
  destruct (in_binP 247.5 d 292.5) as [H6 | H6];
    [left; split; [exact H6 | reflexivity] | right].
  destruct (in_binP 292.5 d 337.5) as [H7 | H7];
    [left; split; [exact H7 | reflexivity] |].
  right. split; [| reflexivity].
  destruct (Qlt_le_dec d 22.5) as [L0 | L0]; [left; exact L0 |].
  destruct (Qlt_le_dec d 337.5) as [L7 | L7]; [| right; exact L7].
  exfalso.
  destruct (Qlt_le_dec d 67.5) as [L1 | L1]; [apply H1; now split |].
  destruct (Qlt_le_dec d 112.5) as [L2 | L2]; [apply H2; now split |].
  destruct (Qlt_le_dec d 157.5) as [L3 | L3]; [apply H3; now split |].
  destruct (Qlt_le_dec d 202.5) as [L4 | L4]; [apply H4; now split |].
  destruct (Qlt_le_dec d 247.5) as [L5 | L5]; [apply H5; now split |].
  destruct (Qlt_le_dec d 292.5) as [L6 | L6]; [apply H6; now split |].
  apply H7; now split.
Qed.

(** Splits the conjunctions and disjunctions among the hypotheses. *)
Ltac split_hyps :=
  repeat match goal with
    | H : _ /\ _ |- _ => destruct H
    | H : _ \/ _ |- _ => destruct H
    end.

(** X3: the label tells the bin: [direction] returns a label exactly on the
    bin of that label, and N exactly outside [22.5, 337.5), negative headings
    and headings of 360 and more included. *)
Theorem direction_inverse (d : Q) :
  (direction d = "NE"%string <-> 22.5 <= d < 67.5)
  /\ (direction d = "E"%string <-> 67.5 <= d < 112.5)
  /\ (direction d = "SE"%string <-> 112.5 <= d < 157.5)
  /\ (direction d = "S"%string <-> 157.5 <= d < 202.5)
  /\ (direction d = "SW"%string <-> 202.5 <= d < 247.5)
  /\ (direction d = "W"%string <-> 247.5 <= d < 292.5)
  /\ (direction d = "NW"%string <-> 292.5 <= d < 337.5)
  /\ (direction d = "N"%string <-> d < 22.5 \/ 337.5 <= d).
Proof.
  destruct (direction_cases d)
    as [[R E] | [[R E] | [[R E] | [[R E] | [[R E] | [[R E] | [[R E] | [R E]]]]]]]];
    rewrite E; repeat apply conj; intro H;
    first [ discriminate H | reflexivity | assumption
          | exfalso; split_hyps; qlra ].
Qed.

Lemma direction_inverse_witness : direction 400 = "N"%string.
Proof.
  apply (proj2 (proj2 (proj2 (proj2 (proj2 (proj2 (proj2
           (direction_inverse 400)))))))).
  right. qconst.
Defined.

(** X4: on the raw headings from 0 to 360, Stage 2 never returns a negative
    heading and never sends two different raw headings to the same device
    heading. *)
Theorem degree_injective_on_range (m1 m2 : Q) :
  0 <= m1 <= 360 -> 0 <= m2 <= 360 ->
  0 <= degree m1 /\ (degree m1 == degree m2 -> m1 == m2).
Proof.
  intros [H1 H1'] [H2 H2']. unfold degree.
  qcases; cbv iota; (split; [| intro E]); qlra.
Qed.

Lemma degree_injective_on_range_witness : 0 <= degree 45.
Proof.
  assert (H : 0 <= 45 <= 360) by (split; qconst).
  exact (proj1 (degree_injective_on_range 45 45 H H)).
Defined.

(** A boolean test that holds on every element of a range of integers. *)
Lemma forallb_Z_range (P : Z -> bool) (lo : Z) (len : nat) :
  forallb P (map (fun i : nat => (lo + Z.of_nat i)%Z) (seq 0 len)) = true ->
  forall n : Z, (lo <= n < lo + Z.of_nat len)%Z -> P n = true.
Proof.
  intros H n Hn. rewrite forallb_forall in H. apply H.
  apply in_map_iff. exists (Z.to_nat (n - lo)). split; [lia |].
  apply in_seq. lia.
Qed.

(** Proves [direction (degree n) = l] for the integers [n] of a range, by
    running the two functions on each of them. *)
Ltac by_enumeration l lo len :=
  apply String.eqb_eq;
  apply (forallb_Z_range
           (fun k : Z => String.eqb (direction (degree (inject_Z k))) l) lo len);
  [vm_compute; reflexivity | lia].

(** X5: the label shown for each whole raw heading from 0 to 360: W up to 21
    and from 338, NW on 22..66, N on 67..112, NE on 113..157, E on 158..202,
    SE on 203..247, S on 248..292 and SW on 293..337. *)
Theorem compassDirection_by_raw_heading (s : HookState) (n : Z) :
  magnetometer s = inject_Z n ->
  ((0 <= n <= 21 \/ 338 <= n <= 360)%Z -> compassDirection s = "W"%string)
  /\ ((22 <= n <= 66)%Z -> compassDirection s = "NW"%string)
  /\ ((67 <= n <= 112)%Z -> compassDirection s = "N"%string)
  /\ ((113 <= n <= 157)%Z -> compassDirection s = "NE"%string)
  /\ ((158 <= n <= 202)%Z -> compassDirection s = "E"%string)
  /\ ((203 <= n <= 247)%Z -> compassDirection s = "SE"%string)
  /\ ((248 <= n <= 292)%Z -> compassDirection s = "S"%string)
  /\ ((293 <= n <= 337)%Z -> compassDirection s = "SW"%string).
Proof.
  intro Hs. unfold compassDirection. rewrite Hs.
  repeat apply conj; intro Hn.
  - destruct Hn as [Hn | Hn].
    + by_enumeration "W"%string 0%Z 22%nat.
    + by_enumeration "W"%string 338%Z 23%nat.
  - by_enumeration "NW"%string 22%Z 45%nat.
  - by_enumeration "N"%string 67%Z 46%nat.
  - by_enumeration "NE"%string 113%Z 45%nat.
  - by_enumeration "E"%string 158%Z 45%nat.
  - by_enumeration "SE"%string 203%Z 45%nat.
  - by_enumeration "S"%string 248%Z 45%nat.
  - by_enumeration "SW"%string 293%Z 45%nat.
Qed.

Lemma compassDirection_by_raw_heading_witness :
  compassDirection (setMagnetometer 90 initial_hook) = "N"%string.
Proof.
  apply (proj1 (proj2 (proj2
           (compassDirection_by_raw_heading
              (setMagnetometer 90 initial_hook) 90 eq_refl)))).
  lia.
Defined.

(** ** The bearing, by the position of the observer *)

Section BearingFacts.

Local Open Scope R_scope.

Lemma to_degrees_pos : 0 < 180.0 / PI.
Proof. pose proof PI_RGT_0. apply Rdiv_lt_0_compat; lra. Qed.

Lemma latk_bounds : 0 < 21.4225 * PI / 180.0 < PI / 2.
Proof. pose proof PI_RGT_0. split; lra. Qed.

(** The difference of the two longitudes in radians, as the code computes
    it, is the difference in degrees times PI / 180. *)
Lemma delta_lambda (longitude : R) :
  39.8264 * PI / 180.0 - longitude * PI / 180.0
  = (39.8264 - longitude) * (PI / 180).
Proof. lra. Qed.

(** The second argument of [atan2] on the target's meridian, up to the
    positive factor cos(latk). *)
Lemma meridian_x (phi : R) :
  let latk := 21.4225 * PI / 180.0 in
  (cos phi * tan latk - sin phi * 1) * cos latk = sin (latk - phi).
Proof.
  intro latk.
  assert (Hc : 0 < cos latk)
    by (pose proof latk_bounds; apply cos_gt_0; unfold latk; lra).
  rewrite sin_minus. unfold tan. field. lra.
Qed.

Lemma calculate_qiblad_meridian (latitude : R) :
  calculate_qiblad latitude 39.8264 =
  180.0 / PI *
  JSMath.atan2 0 (cos (latitude * PI / 180.0) * tan (21.4225 * PI / 180.0)
                  - sin (latitude * PI / 180.0) * 1).
Proof.
  unfold calculate_qiblad.
  replace (39.8264 * PI / 180.0 - 39.8264 * PI / 180.0) with 0 by lra.
  now rewrite sin_0, cos_0.
Qed.

End BearingFacts.

(** X6: an observer east of the target's meridian, by less than 180 degrees,
    gets a negative bearing (towards the west); an observer west of it, by
    less than 180 degrees, gets a positive one. *)
Theorem calculate_qiblad_sign (latitude longitude : R) :
  ((39.8264 < longitude < 219.8264)%R ->
   (calculate_qiblad latitude longitude < 0)%R)
  /\ ((-140.1736 < longitude < 39.8264)%R ->
      (0 < calculate_qiblad latitude longitude)%R).
Proof.
  pose proof PI_RGT_0 as HPI.
  pose proof to_degrees_pos as Hk.
  unfold calculate_qiblad. rewrite delta_lambda.
  set (k := (180.0 / PI)%R) in *.
  set (dl := ((39.8264 - longitude) * (PI / 180))%R).
  match goal with |- context [JSMath.atan2 ?y ?x] =>
    set (a := JSMath.atan2 y x); pose proof (atan2_neg_y y x) as Hneg;
    pose proof (atan2_pos_y y x) as Hpos; fold a in Hneg, Hpos
  end.
  split; intros [Hlo Hhi].
  - assert (Hd : (- PI < dl < 0)%R) by (unfold dl; split; nra).
    assert (Hs : (sin dl < 0)%R) by (apply sin_lt_0_var; lra).
    apply Hneg in Hs.
    assert ((0 < k * - a)%R) by (apply Rmult_lt_0_compat; lra).
    lra.
  - assert (Hd : (0 < dl < PI)%R) by (unfold dl; split; nra).
    assert (Hs : (0 < sin dl)%R) by (apply sin_gt_0; lra).
    apply Hpos in Hs.
    now apply Rmult_lt_0_compat.
Qed.

Lemma calculate_qiblad_sign_witness :
  (calculate_qiblad 0 100 < 0)%R /\ (0 < calculate_qiblad 0 10)%R.
Proof.
  split.
  - apply (proj1 (calculate_qiblad_sign 0 100)). split; lra.
  - apply (proj2 (calculate_qiblad_sign 0 10)). split; lra.
Defined.

(** X7: on the target's own meridian the bearing is 0 from the target and
    from every latitude south of it, and 180 from every latitude north of
    it. *)
Theorem calculate_qiblad_on_meridian (latitude : R) :
  ((-90 <= latitude <= 21.4225)%R -> calculate_qiblad latitude 39.8264 = 0%R)
  /\ ((21.4225 < latitude <= 90)%R ->
      calculate_qiblad latitude 39.8264 = 180%R).
Proof.
  pose proof PI_RGT_0 as HPI.
  pose proof latk_bounds as Hl.
  pose proof (meridian_x (latitude * PI / 180.0)) as Hx. cbv zeta in Hx.
  rewrite calculate_qiblad_meridian, atan2_zero_y.
  set (latk := (21.4225 * PI / 180.0)%R) in *.
  set (phi := (latitude * PI / 180.0)%R) in *.
  set (x := (cos phi * tan latk - sin phi * 1)%R) in *.
  assert (Hc : (0 < cos latk)%R) by (apply cos_gt_0; lra).
  assert (Hd : (latk - phi = (21.4225 - latitude) * (PI / 180))%R)
    by (unfold latk, phi; lra).
  split; intros [Hlo Hhi].
  - assert (Hs : (0 <= sin (latk - phi))%R).
    { rewrite Hd. destruct Hhi as [Hhi | Hhi].
      - left. apply sin_gt_0; nra.
      - rewrite Hhi.
        replace ((21.4225 - 21.4225) * (PI / 180))%R with 0%R by lra.
        rewrite sin_0. lra. }
    destruct (Rlt_dec x 0) as [Hn | _]; [| ring].
    exfalso. rewrite <- Hx in Hs. nra.
  - assert (Hs : (sin (latk - phi) < 0)%R)
      by (rewrite Hd; apply sin_lt_0_var; nra).
    destruct (Rlt_dec x 0) as [_ | Hn].
    + replace 180.0%R with 180%R by lra. field. lra.
    + exfalso. rewrite <- Hx in Hs. nra.
Qed.

Lemma calculate_qiblad_on_meridian_witness :
  calculate_qiblad 0 39.8264 = 0%R /\ calculate_qiblad 50 39.8264 = 180%R.
Proof.
  split.
  - apply (proj1 (calculate_qiblad_on_meridian 0)). split; lra.
  - apply (proj2 (calculate_qiblad_on_meridian 50)). split; lra.
Defined.

(** X8: two observers at the same latitude, as far east and as far west of
    the target's meridian (by less than 180 degrees), get opposite
    bearings. *)
Theorem calculate_qiblad_mirror (latitude d : R) :
  (0 < d < 180)%R ->
  calculate_qiblad latitude (39.8264 + d)
  = (- calculate_qiblad latitude (39.8264 - d))%R.
Proof.
  intros [Hlo Hhi].
  pose proof PI_RGT_0 as HPI.
  unfold calculate_qiblad. rewrite !delta_lambda.
  replace ((39.8264 - (39.8264 + d)) * (PI / 180))%R
    with (- (d * (PI / 180)))%R by lra.
  replace ((39.8264 - (39.8264 - d)) * (PI / 180))%R
    with (d * (PI / 180))%R by lra.
  rewrite sin_neg, cos_neg.
  assert (Hs : (0 < sin (d * (PI / 180)))%R) by (apply sin_gt_0; nra).
  rewrite atan2_opp_y by lra.
  ring.
Qed.

Lemma calculate_qiblad_mirror_witness :
  calculate_qiblad 10 (39.8264 + 30) = (- calculate_qiblad 10 (39.8264 - 30))%R.
Proof. apply calculate_qiblad_mirror. split; lra. Defined.

(** ** One run of [initCompass], by its outcome *)

(** A run that gets past both checks stores the bearing when it has a
    position, and then always clears the loading flag and subscribes. *)
Lemma initCompass_passes (p : Providers) (w : World) :
  passes_checks p = true ->
  initCompass p w =
  match position p with
  | Some (latitude, longitude) =>
      (subscribe (with_hook (setIsLoading false)
                    (calculate latitude longitude w)), Resolved)
  | None => (subscribe (with_hook (setIsLoading false) w), Rejected)
  end.
Proof.
  unfold passes_checks, initCompass. intro H.
  apply andb_true_iff in H. destruct H as [Ha Hs].
  rewrite Ha, Hs. reflexivity.
Qed.

(** A run stopped by one of the two checks only records an error and clears
    the loading flag. *)
Lemma initCompass_stops (p : Providers) (w : World) :
  passes_checks p = false ->
  exists msg : string,
    (msg = "Compass is not available on this device"%string
     \/ msg = "Location permission not granted"%string)
    /\ initCompass p w =
       (with_hook (setIsLoading false) (with_hook (setError (Some msg)) w),
        Resolved).
Proof.
  unfold passes_checks, initCompass. intro H.
  destruct (isAvailableAsync p); cbn [negb andb] in *.
  - rewrite H. eexists. split; [right; reflexivity | reflexivity].
  - eexists. split; [left; reflexivity | reflexivity].
Qed.

Lemma passes_checks_spec (p : Providers) :
  passes_checks p = true <->
  isAvailableAsync p = true /\ permission_status p = "granted"%string.
Proof.
  unfold passes_checks. rewrite andb_true_iff, String.eqb_eq. reflexivity.
Qed.

(** A sample changes nothing but the raw heading, and only when a listener
    is registered. *)
Lemma emit_hook_cases (data : MagnetometerData) (w : World) :
  sensor (emit data w) = sensor w
  /\ ((listeners (sensor w) = [] /\ hook (emit data w) = hook w)
      \/ (listeners (sensor w) <> []
          /\ hook (emit data w) = listener data (hook w))).
Proof.
  unfold emit.
  destruct (emit_listeners data (listeners (sensor w)) w) as [Hh Hs].
  split; [exact Hs |].
  rewrite Hh. destruct (listeners (sensor w)).
  - left. split; reflexivity.
  - right. split; [discriminate | reflexivity].
Qed.

(** X9: when the sensor is available, the permission granted and the
    position obtained, [initCompass] resolves, stores the bearing of that
    position (a value in (-180, 180]), clears the loading flag, sets the
    update interval to 100 ms and registers one more listener, whose handle
    it keeps; the error and the raw heading are left as they were. *)
Theorem initCompass_success (p : Providers) (w : World) (latitude longitude : R) :
  isAvailableAsync p = true ->
  permission_status p = "granted"%string ->
  position p = Some (latitude, longitude) ->
  let w' := fst (initCompass p w) in
  snd (initCompass p w) = Resolved
  /\ qiblad (hook w') = calculate_qiblad latitude longitude
  /\ (-180 < qiblad (hook w') <= 180)%R
  /\ isLoading (hook w') = false
  /\ updateInterval (sensor w') = Some 100%Z
  /\ (exists h : Subscription,
         subscription (hook w') = Some h
         /\ listeners (sensor w') = h :: listeners (sensor w))
  /\ error (hook w') = error (hook w)
  /\ magnetometer (hook w') = magnetometer (hook w).
Proof.
  intros Ha Hs Hp. cbv zeta.
  rewrite (initCompass_position p w latitude longitude Ha Hs Hp).
  cbn [fst snd].
  pose proof (calculate_qiblad_range latitude longitude) as [Hlo Hhi].
  repeat apply conj; try reflexivity; try assumption.
  eexists. split; reflexivity.
Qed.

Lemma initCompass_success_witness :
  qiblad (hook (fst (initCompass (mkProviders true "granted" (Some (0, 0)%R))
                       initial_world)))
  = calculate_qiblad 0 0.
Proof.
  apply (initCompass_success (mkProviders true "granted" (Some (0, 0)%R))
           initial_world 0 0 eq_refl eq_refl eq_refl).
Defined.

(** With both queries answered, [initCompass_settled] is [initCompass] on
    those answers. *)
Lemma initCompass_settled_answered
    (a : bool) (st : string) (located : option (R * R)) (w : World) :
  initCompass_settled (Some a) (Some st) located w
  = initCompass (mkProviders a st located) w.
Proof. reflexivity. Qed.

(** X10: a run of [initCompass] in which the availability query rejects, or
    the sensor is available and the permission request rejects, changes
    nothing at all (the loading flag stays as it was) and its promise
    rejects; every other run ends with the loading flag cleared.  No run
    changes the raw heading, nor the shown degree, label and face rotation.
    The promise rejects exactly when one of those two queries rejects or,
    both checks passed, the position request fails.  A run never takes the
    hook out of its reachable states. *)
Theorem initCompass_settled_every_run
    (available : option bool) (status : option string)
    (located : option (R * R)) (w : World) :
  let r := initCompass_settled available status located w in
  let query_rejects :=
    available = None \/ (available = Some true /\ status = None) in
  (query_rejects -> fst r = w /\ snd r = Rejected)
  /\ (~ query_rejects -> isLoading (hook (fst r)) = false)
  /\ magnetometer (hook (fst r)) = magnetometer (hook w)
  /\ compassDegree (hook (fst r)) = compassDegree (hook w)
  /\ compassDirection (hook (fst r)) = compassDirection (hook w)
  /\ compassRotate (hook (fst r)) = compassRotate (hook w)
  /\ (snd r = Rejected <->
      query_rejects
      \/ (available = Some true /\ status = Some "granted"%string
          /\ located = None))
  /\ (reachable w -> reachable (fst r)).
Proof.
  cbv zeta. unfold compassDegree, compassDirection, compassRotate.
  destruct available as [[|] |].
  - (* the sensor is available *)
    destruct status as [st |].
    + rewrite initCompass_settled_answered.
      destruct (String.eqb st "granted") eqn:Hst.
      * apply String.eqb_eq in Hst. subst st.
        destruct located as [[latitude longitude] |]; cbn [fst snd];
          (split; [intros [H | [_ H]]; discriminate H |]);
          (split; [reflexivity |]);
          do 4 (split; [reflexivity |]);
          (split; [| intro Hw; apply (reach_init
                      (mkProviders true "granted" _) w Hw)]).
        -- split; [intro H; discriminate H |].
           intros [[H | [_ H]] | (_ & _ & H)]; discriminate H.
        -- split; [intros _; right; repeat split | reflexivity].
      * unfold initCompass; cbn [isAvailableAsync permission_status negb].
        rewrite Hst; cbn [negb fst snd].
        split; [intros [H | [_ H]]; discriminate H |].
        split; [reflexivity |].
        do 4 (split; [reflexivity |]).
        split.
        -- split; [intro H; discriminate H |].
           intros [[H | [_ H]] | (_ & H & _)]; try discriminate H.
           injection H as ->. discriminate Hst.
        -- intro Hw.
           pose proof (reach_init (mkProviders true st located) w Hw) as Hr.
           unfold initCompass in Hr.
           cbn [isAvailableAsync permission_status negb] in Hr.
           rewrite Hst in Hr. exact Hr.
    + cbn [initCompass_settled negb fst snd].
      split; [intros _; split; reflexivity |].
      split; [intro H; exfalso; apply H; right; split; reflexivity |].
      do 4 (split; [reflexivity |]).
      split; [| auto].
      split; [intros _; left; right; split; reflexivity | reflexivity].
  - (* the sensor is not available *)
    cbn [initCompass_settled negb fst snd].
    split; [intros [H | [H _]]; discriminate H |].
    split; [reflexivity |].
    do 4 (split; [reflexivity |]).
    split.
    + split; [intro H; discriminate H |].
      intros [[H | [H _]] | (H & _)]; discriminate H.
    + intro Hw.
      apply (reach_init (mkProviders false "granted" located) w Hw).
  - (* the availability query rejects *)
    cbn [initCompass_settled fst snd].
    split; [intros _; split; reflexivity |].
    split; [intro H; exfalso; apply H; left; reflexivity |].
    do 4 (split; [reflexivity |]).
    split; [| auto].
    split; [intros _; left; left; reflexivity | reflexivity].
Qed.

Lemma initCompass_settled_every_run_witness :
  fst (initCompass_settled (Some true) None None initial_world) = initial_world
  /\ snd (initCompass_settled (Some true) None None initial_world) = Rejected
  /\ isLoading (hook (fst (initCompass_settled (Some false) None None
                             initial_world))) = false.
Proof.
  pose proof (initCompass_settled_every_run (Some true) None None initial_world)
    as H1.
  pose proof (initCompass_settled_every_run (Some false) None None initial_world)
    as H2.
  cbv zeta in H1, H2.
  destruct H1 as (H1 & _). destruct H2 as (_ & H2 & _).
  destruct (H1 (or_intror (conj eq_refl eq_refl))) as [Hw Hr].
  repeat apply conj; [exact Hw | exact Hr |].
  apply H2. intros [H | [H _]]; discriminate H.
Defined.

(** X11: [initCompass] never clears the error: a run that passes the checks
    leaves the error as it was, also one recorded by an earlier failed run,
    and a run that fails a check replaces it by its own message. *)
Theorem initCompass_error_sticky (p : Providers) (w : World) :
  let w' := fst (initCompass p w) in
  (passes_checks p = true -> error (hook w') = error (hook w))
  /\ (passes_checks p = false ->
      error (hook w') = Some "Compass is not available on this device"%string
      \/ error (hook w') = Some "Location permission not granted"%string)
  /\ (error (hook w) <> None -> error (hook w') <> None).
Proof.
  cbv zeta. destruct (passes_checks p) eqn:Hc.
  - rewrite (initCompass_passes p w Hc).
    assert (E : error (hook (fst
                match position p with
                | Some (latitude, longitude) =>
                    (subscribe (with_hook (setIsLoading false)
                                  (calculate latitude longitude w)), Resolved)
                | None => (subscribe (with_hook (setIsLoading false) w), Rejected)
                end)) = error (hook w))
      by (destruct (position p) as [[latitude longitude] |]; reflexivity).
    rewrite E. repeat apply conj; [reflexivity | discriminate | auto].
  - destruct (initCompass_stops p w Hc) as [msg [Hm E]]. rewrite E.
    cbn [fst with_hook hook setIsLoading setError error].
    repeat apply conj.
    + discriminate.
    + intros _. destruct Hm as [-> | ->]; [left | right]; reflexivity.
    + intros _. discriminate.
Qed.

Lemma initCompass_error_sticky_witness :
  let failed := fst (initCompass (mkProviders false "granted" None) initial_world) in
  error (hook (fst (initCompass (mkProviders true "granted" None) failed)))
  = Some "Compass is not available on this device"%string.
Proof.
  intro failed.
  rewrite (proj1 (initCompass_error_sticky
                    (mkProviders true "granted" None) failed) eq_refl).
  reflexivity.
Defined.

(** ** Repeated initialisation and samples *)

Lemma initCompass_listeners (p : Providers) (w : World) :
  listeners (sensor (fst (initCompass p w))) =
  if passes_checks p
  then List.length (listeners (sensor w)) :: listeners (sensor w)
  else listeners (sensor w).
Proof.
  destruct (passes_checks p) eqn:Hc.
  - rewrite (initCompass_passes p w Hc).
    destruct (position p) as [[latitude longitude] |]; reflexivity.
  - destruct (initCompass_stops p w Hc) as [msg [_ E]]. rewrite E. reflexivity.
Qed.

(** X12: [initCompass] never removes a listener: each run that passes the
    checks registers one more, a run stopped by a check registers none.  So
    after several runs the magnetometer holds as many listeners of this hook
    as runs passed the checks, on top of those it had. *)
Theorem reinit_listeners_accumulate (ps : list Providers) (w : World) :
  List.length (listeners (sensor (reinit ps w)))
  = (List.length (listeners (sensor w))
     + List.length (filter passes_checks ps))%nat
  /\ (forall h : Subscription,
         In h (listeners (sensor w)) ->
         In h (listeners (sensor (reinit ps w)))).
Proof.
  revert w. induction ps as [| p ps IH]; intro w; cbn [reinit filter].
  - split; [cbn [List.length]; lia | auto].
  - destruct (IH (fst (initCompass p w))) as [IHn IHin].
    rewrite initCompass_listeners in IHn.
    split.
    + rewrite IHn. destruct (passes_checks p); cbn [List.length]; lia.
    + intros h Hh. apply IHin. rewrite initCompass_listeners.
      destruct (passes_checks p); [right |]; exact Hh.
Qed.

Lemma reinit_listeners_accumulate_witness :
  In 0%nat (listeners (sensor
     (reinit [mkProviders true "granted" None; mkProviders true "granted" None]
        (fst (mount (mkProviders true "granted" None)))))).
Proof.
  apply (proj2 (reinit_listeners_accumulate _ _)).
  left. reflexivity.
Defined.

(** X13: a sample delivered while no listener is registered changes nothing;
    with a listener registered it replaces the raw heading by [angle] of the
    sample and leaves the bearing, the error, the loading flag, the
    subscription and the magnetometer service as they were; delivering the
    same sample twice is the same as delivering it once. *)
Theorem emit_effect (data : MagnetometerData) (w : World) :
  (listeners (sensor w) = [] -> emit data w = w)
  /\ (listeners (sensor w) <> [] ->
      magnetometer (hook (emit data w)) = angle (Some data))
  /\ qiblad (hook (emit data w)) = qiblad (hook w)
  /\ error (hook (emit data w)) = error (hook w)
  /\ isLoading (hook (emit data w)) = isLoading (hook w)
  /\ subscription (hook (emit data w)) = subscription (hook w)
  /\ sensor (emit data w) = sensor w
  /\ hook (emit data (emit data w)) = hook (emit data w).
Proof.
  destruct (emit_hook_cases data w) as [Hs [[Hl Hh] | [Hl Hh]]].
  - assert (E : emit data w = w) by (unfold emit; rewrite Hl; reflexivity).
    rewrite !E. repeat apply conj; try reflexivity; auto.
    intro Hn. contradiction.
  - destruct (emit_hook_cases data (emit data w)) as [_ [[Hl' _] | [_ Hh']]].
    + rewrite Hs in Hl'. contradiction.
    + rewrite Hh', Hs, Hh.
      repeat apply conj; try reflexivity.
      intro Hn. contradiction.
Qed.

Lemma emit_effect_witness :
  emit (mkData 0 1) initial_world = initial_world.
Proof.
  apply (proj1 (emit_effect (mkData 0 1) initial_world)). reflexivity.
Defined.

(** ** Invariants of the mounted hook *)

Lemma angle_int_range (d : MagnetometerData) :
  exists n : Z, angle (Some d) = inject_Z n /\ (0 <= n <= 360)%Z.
Proof.
  destruct d as [x y]. rewrite angle_unrounded.
  destruct (angle_degrees_range x y) as [[H0 H360] _].
  eexists. split; [reflexivity |].
  split; [now apply round_lower | now apply round_upper].
Qed.

Lemma degree_int_range (n : Z) :
  (0 <= n <= 360)%Z -> 0 <= degree (inject_Z n) <= 360.
Proof.
  intros [Hlo Hhi].
  destruct (Z_lt_le_dec n 90) as [Hlt | Hge].
  - assert (H89 : (n <= 89)%Z) by lia.
    rewrite Zle_Qle in Hlo, H89. rewrite Zlt_Qlt in Hlt.
    rewrite degree_lt by exact Hlt.
    change (inject_Z 0) with 0 in Hlo. change (inject_Z 89) with 89 in H89.
    split; qlra.
  - rewrite Zle_Qle in Hge, Hhi.
    change (inject_Z 90) with 90 in Hge. change (inject_Z 360) with 360 in Hhi.
    rewrite degree_ge by exact Hge.
    split; qlra.
Qed.

Lemma initCompass_hook_fields (p : Providers) (w : World) :
  magnetometer (hook (fst (initCompass p w))) = magnetometer (hook w)
  /\ isLoading (hook (fst (initCompass p w))) = false
  /\ (qiblad (hook (fst (initCompass p w))) = qiblad (hook w)
      \/ exists latitude longitude : R,
          qiblad (hook (fst (initCompass p w)))
          = calculate_qiblad latitude longitude).
Proof.
  destruct (passes_checks p) eqn:Hc.
  - rewrite (initCompass_passes p w Hc).
    destruct (position p) as [[latitude longitude] |]; cbn [fst].
    + repeat apply conj; try reflexivity.
      right. exists latitude, longitude. reflexivity.
    + repeat apply conj; try reflexivity. left. reflexivity.
  - destruct (initCompass_stops p w Hc) as [msg [_ E]]. rewrite E.
    repeat apply conj; try reflexivity. left. reflexivity.
Qed.

(** The raw heading and the bearing of a mounted hook. *)
Lemma reachable_state_ranges (w : World) :
  reachable w ->
  (exists n : Z, magnetometer (hook w) = inject_Z n /\ (0 <= n <= 360)%Z)
  /\ (-180 < qiblad (hook w) <= 180)%R.
Proof.
  induction 1 as [| p w Hw [IHm IHq] | data w Hw [IHm IHq]].
  - split; [exists 0%Z; split; [reflexivity | lia] | cbn; lra].
  - destruct (initCompass_hook_fields p w) as [Em [_ [Eq | [la [lo Eq]]]]];
      rewrite Em, Eq; split; try assumption.
    apply calculate_qiblad_range.
  - destruct (emit_hook_cases data w) as [_ [[_ Hh] | [_ Hh]]]; rewrite Hh.
    + split; assumption.
    + split; [apply angle_int_range | exact IHq].
Qed.

(** X14: in every state a mounted hook can reach, the raw heading is a whole
    number from 0 to 360 and the bearing lies in (-180, 180]; so the shown
    degree and the face rotation lie in [0, 360], both ends included, and
    the rotation of the target indicator lies in (-180, 540]. *)
Theorem reachable_snapshot_ranges (w : World) :
  reachable w ->
  (exists n : Z, magnetometer (hook w) = inject_Z n /\ (0 <= n <= 360)%Z)
  /\ (-180 < qiblad (hook w) <= 180)%R
  /\ 0 <= compassDegree (hook w) <= 360
  /\ 0 <= compassRotate (hook w) <= 360
  /\ (-180 < kabaRotate (hook w) <= 540)%R.
Proof.
  intro Hw.
  destruct (reachable_state_ranges w Hw) as [[n [En Hn]] Hq].
  assert (Hd : 0 <= degree (magnetometer (hook w)) <= 360)
    by (rewrite En; now apply degree_int_range).
  assert (Hr : 0 <= 360 - degree (magnetometer (hook w)) <= 360)
    by (destruct Hd; split; qlra).
  split; [exists n; now split |].
  split; [exact Hq |].
  split; [exact Hd |].
  split; [exact Hr |].
  unfold kabaRotate. destruct Hr as [Hr0 Hr360].
  apply Qle_Rle in Hr0, Hr360.
  assert (E0 : Q2R 0 = 0%R) by (unfold Q2R; simpl; lra).
  assert (E360 : Q2R 360 = 360%R) by (unfold Q2R; simpl; lra).
  rewrite E0 in Hr0. rewrite E360 in Hr360.
  lra.
Qed.

Lemma reachable_snapshot_ranges_witness :
  0 <= compassDegree (hook (emit (mkData 0 1)
                              (fst (mount (mkProviders true "granted" None)))))
  <= 360.
Proof.
  apply (proj1 (proj2 (proj2 (reachable_snapshot_ranges _
           (reach_emit (mkData 0 1) _
              (reach_init (mkProviders true "granted" None) _
                 reach_initial)))))).
Defined.

(** X15: in every state a mounted hook can reach, the error is empty or one
    of the two messages; the subscription cell holds the handle of the
    listener registered last, and is empty exactly when none is registered;
    the update interval is 100 ms as soon as a listener is registered; and
    the loading flag is only set while nothing at all has happened. *)
Theorem reachable_resources (w : World) :
  reachable w ->
  (error (hook w) = None
   \/ error (hook w) = Some "Compass is not available on this device"%string
   \/ error (hook w) = Some "Location permission not granted"%string)
  /\ subscription (hook w) = hd_error (listeners (sensor w))
  /\ (listeners (sensor w) <> [] -> updateInterval (sensor w) = Some 100%Z)
  /\ (listeners (sensor w) = [] -> updateInterval (sensor w) = None)
  /\ (isLoading (hook w) = true -> w = initial_world).
Proof.
  induction 1 as [| p w Hw (IHe & IHs & IHi & IHn & IHl)
                  | data w Hw (IHe & IHs & IHi & IHn & IHl)].
  - repeat apply conj; try reflexivity.
    + left. reflexivity.
    + intro H. now contradiction H.
  - destruct (passes_checks p) eqn:Hc.
    + rewrite (initCompass_passes p w Hc).
      destruct (position p) as [[latitude longitude] |]; cbn [fst];
        (repeat apply conj;
         [ exact IHe | reflexivity | reflexivity
         | intro H; discriminate H | intro H; discriminate H ]).
    + destruct (initCompass_stops p w Hc) as [msg [Hm E]]. rewrite E.
      cbn [fst with_hook hook sensor setIsLoading setError error subscription
           isLoading].
      repeat apply conj.
      * destruct Hm as [-> | ->]; [right; left | right; right]; reflexivity.
      * exact IHs.
      * exact IHi.
      * exact IHn.
      * intro H. discriminate H.
  - destruct (emit_hook_cases data w) as [Hs [[Hl Hh] | [Hl Hh]]];
      rewrite ?Hs, ?Hh; cbn [listener setMagnetometer error subscription isLoading].
    + repeat apply conj; try assumption.
      intro H. rewrite (IHl H). reflexivity.
    + repeat apply conj; try assumption.
      intro H. rewrite (IHl H). reflexivity.
Qed.

Lemma reachable_resources_witness :
  subscription (hook (fst (mount (mkProviders true "granted" None))))
  = hd_error (listeners (sensor (fst (mount (mkProviders true "granted" None))))).
Proof.
  apply (proj1 (proj2 (reachable_resources _
           (reach_init (mkProviders true "granted" None) _ reach_initial)))).
Defined.

(** ** Unmounting *)

(** X16: the clean-up of the effect calls the [unsubscribe] of the first
    render, whose [subscription] is still empty: it removes no listener.
    After a mount that passed the checks the listener stays registered when
    the component unmounts, its handle is dropped from the cell, and samples
    keep updating the raw heading; [unsubscribe] called with the handle the
    cell holds would have removed it. *)
Theorem unmount_keeps_listener (p : Providers) :
  passes_checks p = true ->
  let mounted := fst (mount p) in
  let gone := unmount mounted in
  listeners (sensor mounted) = [0%nat]
  /\ sensor gone = sensor mounted
  /\ subscription (hook gone) = None
  /\ (forall data : MagnetometerData,
         magnetometer (hook (emit data gone)) = angle (Some data))
  /\ listeners (sensor (unsubscribe (subscription (hook mounted)) mounted)) = [].
Proof.
  intro Hc. cbv zeta. unfold mount.
  rewrite (initCompass_passes p initial_world Hc).
  destruct (position p) as [[latitude longitude] |]; cbn [fst];
    repeat apply conj; try reflexivity; intro data; reflexivity.
Qed.

Lemma unmount_keeps_listener_witness :
  listeners (sensor (unmount (fst (mount (mkProviders true "granted" None)))))
  = [0%nat].
Proof.
  pose proof (unmount_keeps_listener (mkProviders true "granted" None) eq_refl)
    as H.
  cbv zeta in H. destruct H as (H1 & H2 & _).
  rewrite H2. exact H1.
Defined.
